(** * fix_index.py: marker-based relocation of a block of lines

    A shallow embedding of [game/fix_index.py] and the properties of its
    marker scan, its slicing and its reassembly of [index.html].

    Text is modelled as [string] (a sequence of bytes).  The four markers
    are ASCII, so a match on UTF-8 bytes is a match on code points.  File
    contents are the text as Python's text layer presents it, that is,
    after decoding and newline translation.

    The script runs over a [world]: the files by path and the lines
    printed so far.  Opening a path that has no file raises
    [FileNotFoundError], which the script does not catch; decoding errors
    and failures while writing are outside the model. *)

From Stdlib Require Import ZArith Ascii String DecimalString Permutation.
From stdpp Require Import gmap strings list.

Local Open Scope Z_scope.

(** ** Python primitives used by the script *)

Module Py.

Definition newline : ascii := "010"%char.
Definition dquote : ascii := "034"%char.

Definition nl : string := String newline EmptyString.
Definition dq : string := String dquote EmptyString.

(** [marker in line] on [str]: does [marker] occur at some offset of
    [line]? *)
Fixpoint str_in (marker line : string) : bool :=
  String.prefix marker line
  || match line with
     | EmptyString => false
     | String _ rest => str_in marker rest
     end.

(** [str(n)] for an [int], as used by f-string interpolation. *)
Definition str_of_int (n : Z) : string := NilZero.string_of_int (Z.to_int n).

(** [enumerate(lines)], counting from [i]. *)
Fixpoint enumerate_from {A} (i : Z) (l : list A) : list (Z * A) :=
  match l with
  | [] => []
  | x :: l' => (i, x) :: enumerate_from (i + 1) l'
  end.

Definition enumerate {A} (l : list A) : list (Z * A) := enumerate_from 0 l.

(** Normalisation of one slice bound against a sequence of length [len]:
    a negative bound counts from the end, and every bound is clamped to
    [0 .. len]. *)
Definition adjust_index (len i : Z) : Z :=
  if i <? 0 then Z.max (i + len) 0 else Z.min i len.

(** [l[start:stop]]; [None] is an omitted bound. *)
Definition slice {A} (start stop : option Z) (l : list A) : list A :=
  let len := Z.of_nat (length l) in
  let lo := match start with None => 0 | Some i => adjust_index len i end in
  let hi := match stop with None => len | Some j => adjust_index len j end in
  take (Z.to_nat (hi - lo)) (drop (Z.to_nat lo) l).

(** [f.readlines()] on a text file: the text is cut after every newline
    and each line keeps its terminator. *)
Fixpoint readlines (text : string) : list string :=
  match text with
  | EmptyString => []
  | String c rest =>
      if Ascii.eqb c newline then String c EmptyString :: readlines rest
      else match readlines rest with
           | [] => [String c EmptyString]
           | l :: ls => String c l :: ls
           end
  end.

(** [f.writelines(lines)]: the lines are written one after the other,
    nothing is added between them. *)
Definition writelines (lines : list string) : string :=
  foldr String.append EmptyString lines.

End Py.

(** ** The script *)

Module FixIndex.
Import Py.

Definition file_path : string :=
  "c:\Users\naka6\Projects\AROnmyouji\game\index.html".

(** *** Markers *)

Definition placeholder_start_marker : string :=
  "    <!-- Loading Screen (New) -->".
Definition placeholder_end_marker : string :=
  "    <!-- WRAPPER FOR CRT ANIMATION - INITIALLY HIDDEN (Screen Off) -->".
Definition orphaned_start_marker : string :=
  "            <!-- Top Left Info -->".
Definition orphaned_end_marker : string :=
  "        <!-- Gameplay Screen (Updated with User's HUD) -->".

(** *** Locating the markers *)

(** The four index variables of the script. *)
Record indices : Type := Indices {
  placeholder_start : Z;
  placeholder_end : Z;
  orphaned_start : Z;
  orphaned_end : Z
}.

Definition initial_indices : indices := Indices (-1) (-1) (-1) (-1).

(** One of the four [if]s of the loop body: [var] is set to [i] when it
    still holds the sentinel and the marker occurs in the line. *)
Definition update (var : Z) (marker : string) (i : Z) (line : string) : Z :=
  if (var =? -1) && str_in marker line then i else var.

(** The body of the [for] loop. *)
Definition loop_body (st : indices) (il : Z * string) : indices :=
  let '(i, line) := il in
  Indices (update (placeholder_start st) placeholder_start_marker i line)
          (update (placeholder_end st) placeholder_end_marker i line)
          (update (orphaned_start st) orphaned_start_marker i line)
          (update (orphaned_end st) orphaned_end_marker i line).

Definition find_indices (lines : list string) : indices :=
  foldl loop_body initial_indices (enumerate lines).

(** The test guarding [exit(1)]. *)
Definition marker_missing (ix : indices) : bool :=
  (placeholder_start ix =? -1) || (placeholder_end ix =? -1)
  || (orphaned_start ix =? -1) || (orphaned_end ix =? -1).

(** *** Extraction and reassembly *)

Definition orphaned_content (lines : list string) (ix : indices) : list string :=
  slice (Some (orphaned_start ix)) (Some (orphaned_end ix)) lines.

Definition header : list string :=
  [ "    <!-- Loading Screen (New) -->" +:+ nl;
    "    <div id=" +:+ dq +:+ "loadingScreen" +:+ dq +:+ nl;
    "        class=" +:+ dq +:+ "screen active absolute inset-0 z-[60] flex flex-col items-center justify-center bg-background-light dark:bg-background-dark text-black dark:text-white font-mono overflow-hidden transition-colors duration-500" +:+ dq +:+ ">" +:+ nl;
    "        <!-- Background elements -->" +:+ nl;
    "        <!-- Background elements (Moved to global) -->" +:+ nl;
    nl ].

Definition part1 (lines : list string) (ix : indices) : list string :=
  slice None (Some (placeholder_start ix)) lines.
Definition part2 (lines : list string) (ix : indices) : list string :=
  slice (Some (placeholder_end ix)) (Some (orphaned_start ix)) lines.
Definition part3 (lines : list string) (ix : indices) : list string :=
  slice (Some (orphaned_end ix)) None lines.

Definition new_lines (lines : list string) (ix : indices) : list string :=
  part1 lines ix ++ header ++ orphaned_content lines ix
    ++ part2 lines ix ++ part3 lines ix.

(** The decision and the new content, as a function of the lines read:
    [None] is the [exit(1)] path. *)
Definition transform (lines : list string) : option (list string) :=
  let ix := find_indices lines in
  if marker_missing ix then None else Some (new_lines lines ix).

(** *** The script as a whole, over files and the console *)

(** What the script can observe and change: the files by path, and the
    lines printed so far. *)
Record world : Type := World {
  files : gmap string string;
  console : list string
}.

(** How a run ends: with an exit status, or with the [FileNotFoundError]
    of the [open] for reading, which the script does not catch.  A run
    that fails while decoding the file, or during or after the write, has
    no counterpart here: [main] speaks of runs on a file that decodes and
    whose write and prints go through. *)
Inductive termination : Type :=
| Exit (code : Z)
| Uncaught_FileNotFoundError.

Definition print (msg : string) (w : world) : world :=
  World (files w) (console w ++ [msg]).

(** [open(path, 'w')] followed by [f.writelines]. *)
Definition write_file (path : string) (lines : list string) (w : world) : world :=
  World (<[path := writelines lines]> (files w)) (console w).

Definition indices_message (ix : indices) : string :=
  "Indices found: P_Start=" +:+ str_of_int (placeholder_start ix)
  +:+ ", P_End=" +:+ str_of_int (placeholder_end ix)
  +:+ ", O_Start=" +:+ str_of_int (orphaned_start ix)
  +:+ ", O_End=" +:+ str_of_int (orphaned_end ix).

Definition len (lines : list string) : Z := Z.of_nat (length lines).

Definition main (w : world) : world * termination :=
  match files w !! file_path with
  | None => (w, Uncaught_FileNotFoundError)
  | Some text =>
      let lines := readlines text in
      let ix := find_indices lines in
      let w := print (indices_message ix) w in
      if marker_missing ix then
        let w := print "Error: Could not find all markers." w in
        (w, Exit 1)
      else
        let new := new_lines lines ix in
        let w := print ("Original lines: " +:+ str_of_int (len lines)) w in
        let w := print ("New lines: " +:+ str_of_int (len new)) w in
        let w := write_file file_path new w in
        let w := print "Successfully updated index.html" w in
        (w, Exit 0)
  end.

End FixIndex.

Import Py FixIndex.

(** ** Vocabulary of the properties *)

(** *** Markers and their first match *)

(** [marker] occurs in [line]: the line is some text, the marker, and some
    more text. *)
Definition occurs (marker line : string) : Prop :=
  ∃ pre post, line = pre +:+ marker +:+ post.

(** [k] is the index of the first line of [lines] in which [marker] occurs,
    or the sentinel [-1] when there is no such line. *)
Definition first_match (marker : string) (lines : list string) (k : Z) : Prop :=
  (k = -1 ∧ ∀ line, line ∈ lines → ¬ occurs marker line)
  ∨ (∃ (n : nat) (line : string),
        k = Z.of_nat n ∧ lines !! n = Some line ∧ occurs marker line
        ∧ ∀ (j : nat) (line' : string),
            (j < n)%nat → lines !! j = Some line' → ¬ occurs marker line').

(** The loop restricted to one variable and its marker. *)
Definition scan (marker : string) (var : Z) (ils : list (Z * string)) : Z :=
  foldl (λ v il, update v marker il.1 il.2) var ils.

(** The concatenation of section 4.3 of the specification, over natural
    indices: the lines before [ps], the header, the lines from [os] up to
    [oe], the lines from [pe] up to [os], and the lines from [oe] on. *)
Definition concatenation (lines : list string) (ps pe os oe : nat) : list string :=
  take ps lines ++ header ++ drop os (take oe lines)
    ++ drop pe (take os lines) ++ drop oe lines.

(** The four markers the script looks for. *)
Definition markers : list string :=
  [placeholder_start_marker; placeholder_end_marker;
   orphaned_start_marker; orphaned_end_marker].

(** Some line of [lines] has the marker. *)
Definition present (marker : string) (lines : list string) : Prop :=
  ∃ line, line ∈ lines ∧ occurs marker line.

(** *** What a run prints *)

(** The two fixed messages of the script. *)
Definition error_message : string := "Error: Could not find all markers.".

Definition success_message : string := "Successfully updated index.html".

(** What a run prints when it writes [new] in place of [lines]. *)
Definition report (lines new : list string) : list string :=
  [ indices_message (find_indices lines);
    "Original lines: " +:+ str_of_int (len lines);
    "New lines: " +:+ str_of_int (len new);
    success_message ].

(** *** Lines as read from a file *)

(** A line that ends at its first newline. *)
Fixpoint terminated (s : string) : bool :=
  match s with
  | EmptyString => false
  | String c rest =>
      if Ascii.eqb c newline then
        match rest with EmptyString => true | _ => false end
      else terminated rest
  end.

(** A non-empty line without any newline: the last line of a file that
    does not end with one. *)
Fixpoint unterminated (s : string) : bool :=
  match s with
  | EmptyString => false
  | String c rest =>
      negb (Ascii.eqb c newline)
      && match rest with EmptyString => true | _ => unterminated rest end
  end.

(** The shape of what [readlines] returns: every line ends at its only
    newline, except that the last one may have none. *)
Inductive file_lines : list string → Prop :=
| file_lines_nil : file_lines []
| file_lines_last (s : string) : unterminated s = true → file_lines [s]
| file_lines_cons (s : string) (l : list string) :
    terminated s = true → file_lines l → file_lines (s :: l).

(** *** Order of the indices *)

(** The order the specification assumes: [ps < pe ≤ os < oe]. *)
Definition ordered (ix : indices) : Prop :=
  placeholder_start ix < placeholder_end ix
  ∧ placeholder_end ix ≤ orphaned_start ix
  ∧ orphaned_start ix < orphaned_end ix.

(** The same order, not strict: [ps ≤ pe ≤ os ≤ oe]. *)
Definition weakly_ordered (ix : indices) : Prop :=
  placeholder_start ix ≤ placeholder_end ix
  ∧ placeholder_end ix ≤ orphaned_start ix
  ∧ orphaned_start ix ≤ orphaned_end ix.

(** The lines [lines[ps:pe]] that the placeholder occupies. *)
Definition placeholder_block (lines : list string) (ps pe : nat) : list string :=
  drop ps (take pe lines).

(** *** The region extractor *)


(** *** Fixtures *)

(** A line of text with its terminator. *)
Definition ln (s : string) : string := s +:+ nl.

(** Twenty lines with the markers on lines 2, 5, 10 and 14. *)
Definition fixture20 : list string :=
  [ ln "<!DOCTYPE html>";
    ln "<body>";
    ln placeholder_start_marker;
    ln "    <div id=oldLoadingScreen>";
    ln "    </div>";
    ln placeholder_end_marker;
    ln "    <div id=crtWrapper>";
    ln "        <div id=startScreen>";
    ln "        </div>";
    ln "        <!-- HUD -->";
    ln orphaned_start_marker;
    ln "            <div id=topLeftInfo>";
    ln "            </div>";
    ln "        </div>";
    ln orphaned_end_marker;
    ln "        <div id=gameplayScreen>";
    ln "        </div>";
    ln "    </div>";
    ln "</body>";
    "</html>" ].

(** All four markers, with [orphaned_start] before [placeholder_end]. *)
Definition fixture_out_of_order : list string :=
  [ ln orphaned_start_marker;
    ln placeholder_start_marker;
    ln orphaned_end_marker;
    ln placeholder_end_marker;
    "</html>" ].

(** [fixture20] without the line of the [orphaned_end] marker. *)
Definition fixture_missing : list string :=
  take 14 fixture20 ++ drop 15 fixture20.

(** A world where [index.html] holds [lines], next to another file and
    after some earlier output. *)
Definition world_of (lines : list string) : world :=
  World (<[ "notes.txt" := "keep" ]> {[ file_path := writelines lines ]})
        ["earlier output"].

(** ** Substrings *)

Section substring.

Lemma prefix_split (m s : string) :
  String.prefix m s = true ↔ ∃ post, s = m +:+ post.
Proof.
  revert s. induction m as [|c m IH]; intros s; simpl.
  - destruct s; (split; [intros _; by eexists | done]).
  - destruct s as [|d s]; simpl.
    + split; [done | intros [post Hp]; discriminate].
    + destruct (Ascii.ascii_dec c d) as [Heq|Hne].
      * subst d. rewrite IH. split; intros [post Hp]; exists post.
        -- by rewrite Hp.
        -- by injection Hp.
      * split; [done | intros [post Hp]; injection Hp; congruence].
Qed.

Lemma str_in_occurs (m s : string) : str_in m s = true ↔ occurs m s.
Proof.
  induction s as [|d s IH]; cbn [str_in].
  - rewrite orb_false_r, prefix_split. split.
    + intros [post Hp]. by exists EmptyString, post.
    + intros [[|c pre] [post Hp]]; [by exists post | discriminate].
  - rewrite orb_true_iff, prefix_split, IH. split.
    + intros [[post Hp] | (pre & post & Hp)].
      * by exists EmptyString, post.
      * exists (String d pre), post. simpl. by rewrite Hp.
    + intros [[|c pre] [post Hp]].
      * left. by exists post.
      * right. injection Hp as _ Hp. by exists pre, post.
Qed.

Lemma str_in_not_occurs (m s : string) : str_in m s = false ↔ ¬ occurs m s.
Proof. rewrite <- str_in_occurs. by destruct (str_in m s). Qed.

Lemma occurs_self_nl (m : string) : occurs m (m +:+ nl).
Proof. by exists EmptyString, nl. Qed.

End substring.

(** ** The marker scan *)

Section scan.

Lemma find_indices_scan (st : indices) (ils : list (Z * string)) :
  foldl loop_body st ils =
  Indices (scan placeholder_start_marker (placeholder_start st) ils)
          (scan placeholder_end_marker (placeholder_end st) ils)
          (scan orphaned_start_marker (orphaned_start st) ils)
          (scan orphaned_end_marker (orphaned_end st) ils).
Proof.
  revert st. induction ils as [|[i line] ils IH]; intros [a b c d].
  - done.
  - cbn [foldl]. by rewrite IH.
Qed.

Variable marker : string.

Lemma update_set (i : Z) (line : string) :
  update (-1) marker i line = if str_in marker line then i else -1.
Proof. done. Qed.

Lemma update_keep (v i : Z) (line : string) :
  v ≠ -1 → update v marker i line = v.
Proof.
  intros Hv. unfold update.
  destruct (Z.eqb_spec v (-1)); [done | by rewrite andb_false_l].
Qed.

Lemma scan_keep (v : Z) (ils : list (Z * string)) :
  v ≠ -1 → scan marker v ils = v.
Proof.
  intros Hv. induction ils as [|[i line] ils IH]; [done|].
  unfold scan in *. cbn [foldl fst snd]. by rewrite update_keep.
Qed.

Lemma scan_first_match (i : Z) (lines : list string) :
  0 ≤ i →
  let k := scan marker (-1) (enumerate_from i lines) in
  (k = -1 ∧ ∀ line, line ∈ lines → ¬ occurs marker line)
  ∨ (∃ (n : nat) (line : string),
        k = i + Z.of_nat n ∧ lines !! n = Some line ∧ occurs marker line
        ∧ ∀ (j : nat) (line' : string),
            (j < n)%nat → lines !! j = Some line' → ¬ occurs marker line').
Proof.
  revert i. induction lines as [|l lines IH]; intros i Hi k.
  - left. split; [done|]. intros line Hin. by apply elem_of_nil in Hin.
  - subst k. unfold scan. cbn [enumerate_from foldl fst snd].
    rewrite update_set. destruct (str_in marker l) eqn:Hl.
    + right. exists 0%nat, l. fold (scan marker i (enumerate_from (i + 1) lines)).
      rewrite scan_keep by lia. split_and!; [lia | done | by apply str_in_occurs |].
      intros j line' Hj. lia.
    + fold (scan marker (-1) (enumerate_from (i + 1) lines)).
      apply str_in_not_occurs in Hl.
      destruct (IH (i + 1) ltac:(lia)) as [[Hk Hall] | (n & line & Hk & Hn & Hocc & Hmin)].
      * left. split; [done|]. intros line [->|Hin]%elem_of_cons; auto.
      * right. exists (S n), line. split_and!; [lia | done | done |].
        intros [|j] line' Hj Hlk; simpl in Hlk.
        -- by injection Hlk as <-.
        -- apply (Hmin j); [lia | done].
Qed.

Lemma scan_first_match_0 (lines : list string) :
  first_match marker lines (scan marker (-1) (enumerate lines)).
Proof.
  destruct (scan_first_match 0 lines ltac:(lia)) as [H | (n & line & Hk & H)].
  - by left.
  - right. exists n, line. split; [unfold enumerate; lia | done].
Qed.

End scan.

Lemma find_indices_first_match (lines : list string) :
  first_match placeholder_start_marker lines (placeholder_start (find_indices lines))
  ∧ first_match placeholder_end_marker lines (placeholder_end (find_indices lines))
  ∧ first_match orphaned_start_marker lines (orphaned_start (find_indices lines))
  ∧ first_match orphaned_end_marker lines (orphaned_end (find_indices lines)).
Proof.
  unfold find_indices. rewrite find_indices_scan. cbn [placeholder_start placeholder_end orphaned_start orphaned_end initial_indices].
  split_and!; apply scan_first_match_0.
Qed.

Section first_match.

Context {marker : string} {lines : list string} {k : Z}.
Hypothesis Hfm : first_match marker lines k.

(** An index other than the sentinel points at a line with the marker. *)
Lemma first_match_found :
  k ≠ -1 →
  ∃ line, lines !! Z.to_nat k = Some line ∧ occurs marker line
          ∧ 0 ≤ k < Z.of_nat (length lines).
Proof.
  intros Hk. destruct Hfm as [[? _] | (n & line & -> & Hn & Hocc & _)]; [done|].
  exists line. rewrite Nat2Z.id. split_and!; [done | done | lia |].
  apply lookup_lt_Some in Hn. lia.
Qed.

(** The sentinel is kept exactly when no line has the marker. *)
Lemma first_match_sentinel :
  k = -1 ↔ ∀ line, line ∈ lines → ¬ occurs marker line.
Proof.
  destruct Hfm as [[? Hall] | (n & line & -> & Hn & Hocc & _)]; [done|].
  split; [lia|]. intros Hall. destruct (Hall line); [|done].
  apply list_elem_of_lookup. by exists n.
Qed.

Lemma first_match_before (j : nat) (line : string) :
  Z.of_nat j < k → lines !! j = Some line → ¬ occurs marker line.
Proof.
  intros Hj Hl. destruct Hfm as [[? _] | (n & ? & -> & _ & _ & Hmin)]; [lia|].
  apply (Hmin j); [lia | done].
Qed.

End first_match.

(** ** Slices with non-negative bounds *)

Section slice.

Context {A : Type}.
Implicit Types (l : list A) (a b : Z).

Lemma slice_upto l b : 0 ≤ b → slice None (Some b) l = take (Z.to_nat b) l.
Proof.
  intros Hb. unfold slice, adjust_index.
  destruct (Z.ltb_spec b 0); [lia|]. rewrite Z.sub_0_r.
  change (Z.to_nat 0) with 0%nat. rewrite drop_0.
  destruct (Z.min_spec b (Z.of_nat (length l))) as [[? ->] | [? ->]]; [done|].
  rewrite Nat2Z.id. by rewrite !take_ge by lia.
Qed.

Lemma slice_from l a : 0 ≤ a → slice (Some a) None l = drop (Z.to_nat a) l.
Proof.
  intros Ha. unfold slice, adjust_index.
  destruct (Z.ltb_spec a 0); [lia|].
  destruct (Z.min_spec a (Z.of_nat (length l))) as [[? ->] | [? ->]].
  - apply take_ge. rewrite length_drop. lia.
  - rewrite Nat2Z.id. rewrite !drop_ge by lia. apply take_nil.
Qed.

Lemma slice_between l a b :
  0 ≤ a → 0 ≤ b →
  slice (Some a) (Some b) l = drop (Z.to_nat a) (take (Z.to_nat b) l).
Proof.
  intros Ha Hb. unfold slice, adjust_index.
  destruct (Z.ltb_spec a 0); [lia|]. destruct (Z.ltb_spec b 0); [lia|].
  apply list_eq. intros i.
  rewrite lookup_take, !lookup_drop, lookup_take.
  repeat case_decide; try done.
  - f_equal. lia.
  - apply lookup_ge_None_2. lia.
  - symmetry. apply lookup_ge_None_2. lia.
Qed.

End slice.

(** ** Reassembly *)

Lemma marker_missing_false (ix : indices) :
  marker_missing ix = false ↔
  placeholder_start ix ≠ -1 ∧ placeholder_end ix ≠ -1
  ∧ orphaned_start ix ≠ -1 ∧ orphaned_end ix ≠ -1.
Proof.
  unfold marker_missing. rewrite !orb_false_iff, !Z.eqb_neq. tauto.
Qed.

Lemma marker_missing_true (ix : indices) :
  marker_missing ix = true ↔
  placeholder_start ix = -1 ∨ placeholder_end ix = -1
  ∨ orphaned_start ix = -1 ∨ orphaned_end ix = -1.
Proof.
  unfold marker_missing. rewrite !orb_true_iff, !Z.eqb_eq. tauto.
Qed.

Lemma length_header : length header = 6%nat.
Proof. done. Qed.

Lemma length_concatenation (lines : list string) (ps pe os oe : nat) :
  (ps ≤ length lines)%nat → (os ≤ length lines)%nat → (oe ≤ length lines)%nat →
  length (concatenation lines ps pe os oe)
  = (ps + 6 + (oe - os) + (os - pe) + (length lines - oe))%nat.
Proof.
  intros Hps Hos Hoe. unfold concatenation.
  rewrite !length_app, !length_drop, !length_take, length_header. lia.
Qed.

Section found.

Variable lines : list string.
Let ix := find_indices lines.
Hypothesis Hfound : marker_missing ix = false.

Let ps := Z.to_nat (placeholder_start ix).
Let pe := Z.to_nat (placeholder_end ix).
Let os := Z.to_nat (orphaned_start ix).
Let oe := Z.to_nat (orphaned_end ix).

(** Every index is the position of a line carrying its marker. *)
Lemma found_lines :
  (∃ line, lines !! ps = Some line ∧ occurs placeholder_start_marker line)
  ∧ (∃ line, lines !! pe = Some line ∧ occurs placeholder_end_marker line)
  ∧ (∃ line, lines !! os = Some line ∧ occurs orphaned_start_marker line)
  ∧ (∃ line, lines !! oe = Some line ∧ occurs orphaned_end_marker line).
Proof.
  destruct (find_indices_first_match lines) as (H1 & H2 & H3 & H4).
  apply marker_missing_false in Hfound as (N1 & N2 & N3 & N4).
  split_and!.
  - destruct (first_match_found H1 N1) as (line & ? & ? & _). by exists line.
  - destruct (first_match_found H2 N2) as (line & ? & ? & _). by exists line.
  - destruct (first_match_found H3 N3) as (line & ? & ? & _). by exists line.
  - destruct (first_match_found H4 N4) as (line & ? & ? & _). by exists line.
Qed.

Lemma found_range :
  (0 ≤ placeholder_start ix < len lines) ∧ (0 ≤ placeholder_end ix < len lines)
  ∧ (0 ≤ orphaned_start ix < len lines) ∧ (0 ≤ orphaned_end ix < len lines).
Proof.
  destruct (find_indices_first_match lines) as (H1 & H2 & H3 & H4).
  apply marker_missing_false in Hfound as (N1 & N2 & N3 & N4).
  unfold len. split; [|split; [|split]].
  - by destruct (first_match_found H1 N1) as (line & _ & _ & ?).
  - by destruct (first_match_found H2 N2) as (line & _ & _ & ?).
  - by destruct (first_match_found H3 N3) as (line & _ & _ & ?).
  - by destruct (first_match_found H4 N4) as (line & _ & _ & ?).
Qed.

Lemma found_range_nat :
  (ps < length lines)%nat ∧ (pe < length lines)%nat
  ∧ (os < length lines)%nat ∧ (oe < length lines)%nat.
Proof. destruct found_range as (? & ? & ? & ?). unfold len in *. lia. Qed.

(** The slices of the script are the pieces of the concatenation. *)
Lemma new_lines_concatenation :
  new_lines lines ix = concatenation lines ps pe os oe.
Proof.
  destruct found_range as (? & ? & ? & ?).
  unfold new_lines, concatenation, part1, part2, part3, orphaned_content.
  rewrite slice_upto, slice_from, !slice_between by lia. done.
Qed.

Lemma transform_concatenation :
  transform lines = Some (concatenation lines ps pe os oe).
Proof.
  unfold transform. fold ix. by rewrite Hfound, new_lines_concatenation.
Qed.

End found.

(** ** Presence of the markers *)

(** Membership in a list written out element by element. *)
Ltac elem_of_list :=
  repeat first [apply list_elem_of_here | apply list_elem_of_further].

Lemma first_match_present (marker : string) (lines : list string) (k : Z) :
  first_match marker lines k → (k ≠ -1 ↔ present marker lines).
Proof.
  intros Hfm. split.
  - intros Hk. destruct (first_match_found Hfm Hk) as (line & Hl & Hocc & _).
    exists line. split; [|done]. apply list_elem_of_lookup. eauto.
  - intros (line & Hin & Hocc) Hk.
    by apply (proj1 (first_match_sentinel Hfm) Hk line).
Qed.

Lemma marker_missing_present (lines : list string) :
  marker_missing (find_indices lines) = false ↔
  ∀ marker, marker ∈ markers → present marker lines.
Proof.
  destruct (find_indices_first_match lines) as (H1 & H2 & H3 & H4).
  apply first_match_present in H1. apply first_match_present in H2.
  apply first_match_present in H3. apply first_match_present in H4.
  rewrite marker_missing_false, H1, H2, H3, H4. unfold markers. split.
  - intros (? & ? & ? & ?) m Hm.
    repeat (apply elem_of_cons in Hm as [->|Hm]; [done|]).
    by apply elem_of_nil in Hm.
  - intros Hall. split_and!; apply Hall; elem_of_list.
Qed.

Lemma transform_None (lines : list string) :
  transform lines = None ↔ ∃ marker, marker ∈ markers ∧ ¬ present marker lines.
Proof.
  unfold transform. destruct (marker_missing (find_indices lines)) eqn:Hm.
  - split; [intros _ | done].
    destruct (find_indices_first_match lines) as (H1 & H2 & H3 & H4).
    apply first_match_present in H1. apply first_match_present in H2.
    apply first_match_present in H3. apply first_match_present in H4.
    apply marker_missing_true in Hm as [Hm | [Hm | [Hm | Hm]]].
    + exists placeholder_start_marker. split; [elem_of_list | tauto].
    + exists placeholder_end_marker. split; [elem_of_list | tauto].
    + exists orphaned_start_marker. split; [elem_of_list | tauto].
    + exists orphaned_end_marker. split; [elem_of_list | tauto].
  - split; [done|]. intros (m & Hin & Hno).
    destruct Hno. by apply (proj1 (marker_missing_present lines) Hm).
Qed.

(** ** The script over a world *)

Lemma main_missing_file (w : world) :
  files w !! file_path = None → main w = (w, Uncaught_FileNotFoundError).
Proof. intros H. unfold main. by rewrite H. Qed.

Lemma main_abort (w : world) (text : string) :
  files w !! file_path = Some text →
  transform (readlines text) = None →
  main w = (World (files w)
                  (console w ++ [indices_message (find_indices (readlines text));
                                 error_message]),
            Exit 1).
Proof.
  intros Hf Ht. unfold main, transform in *. rewrite Hf.
  destruct (marker_missing _); [|done].
  unfold print. cbn [files console]. by rewrite <- app_assoc.
Qed.

Lemma main_write (w : world) (text : string) (new : list string) :
  files w !! file_path = Some text →
  transform (readlines text) = Some new →
  main w = (World (<[file_path := writelines new]> (files w))
                  (console w ++ report (readlines text) new),
            Exit 0).
Proof.
  intros Hf Ht. unfold main, transform in *. rewrite Hf.
  destruct (marker_missing _); [done|]. injection Ht as <-.
  unfold print, write_file, report. cbn [files console].
  by rewrite <- !app_assoc.
Qed.

(** ** Lines as read from a file *)

Section readlines.

Lemma append_cons (c : ascii) (s t : string) :
  String c s +:+ t = String c (s +:+ t).
Proof. done. Qed.

Lemma append_nil_r (s : string) : s +:+ EmptyString = s.
Proof. induction s as [|c s IH]; [done|]. by rewrite append_cons, IH. Qed.

Lemma append_assoc (s t u : string) : (s +:+ t) +:+ u = s +:+ (t +:+ u).
Proof. induction s as [|c s IH]; [done|]. by rewrite !append_cons, IH. Qed.

Lemma writelines_cons (s : string) (l : list string) :
  writelines (s :: l) = s +:+ writelines l.
Proof. done. Qed.

Lemma writelines_app (l1 l2 : list string) :
  writelines (l1 ++ l2) = writelines l1 +:+ writelines l2.
Proof.
  induction l1 as [|s l1 IH]; [done|].
  cbn [app]. rewrite !writelines_cons, IH. symmetry. apply append_assoc.
Qed.

(** Writing back what was read restores the text. *)
Lemma writelines_readlines (text : string) : writelines (readlines text) = text.
Proof.
  induction text as [|c rest IH]; [done|]. cbn [readlines].
  destruct (Ascii.eqb c newline).
  - rewrite writelines_cons, IH. done.
  - destruct (readlines rest) as [|l ls].
    + cbn in IH. by subst rest.
    + rewrite writelines_cons, append_cons. by rewrite <- IH.
Qed.

Lemma readlines_file_lines (text : string) : file_lines (readlines text).
Proof.
  induction text as [|c rest IH]; [constructor|]. cbn [readlines].
  destruct (Ascii.eqb c newline) eqn:Hc.
  - apply file_lines_cons; [|done]. cbn. by rewrite Hc.
  - destruct (readlines rest) as [|l ls].
    + apply file_lines_last. cbn. by rewrite Hc.
    + inversion IH as [|s Hs|s l' Hs Hl]; subst.
      * apply file_lines_last. cbn [unterminated]. rewrite Hc.
        destruct l; [done|]. exact Hs.
      * apply file_lines_cons; [|done]. cbn [terminated]. by rewrite Hc.
Qed.

Lemma readlines_terminated (s rest : string) :
  terminated s = true → readlines (s +:+ rest) = s :: readlines rest.
Proof.
  induction s as [|c s IH]; [done|].
  rewrite append_cons. cbn [terminated readlines].
  destruct (Ascii.eqb c newline) eqn:Hc.
  - destruct s; [done | discriminate].
  - intros Hs. by rewrite IH.
Qed.

Lemma readlines_unterminated (s : string) :
  unterminated s = true → readlines s = [s].
Proof.
  induction s as [|c s IH]; [done|]. cbn [unterminated readlines].
  destruct (Ascii.eqb c newline); [done|]. cbn [negb andb].
  destruct s as [|d s]; [done|]. intros Hs. by rewrite IH.
Qed.

(** Reading back what was written restores the lines, when they have
    the shape of file lines. *)
Lemma readlines_writelines (l : list string) :
  file_lines l → readlines (writelines l) = l.
Proof.
  induction 1 as [|s Hs|s l Hs Hl IH].
  - done.
  - rewrite writelines_cons. change (writelines []) with EmptyString.
    rewrite append_nil_r. by apply readlines_unterminated.
  - rewrite writelines_cons, readlines_terminated by done. by rewrite IH.
Qed.

End readlines.

Section file_lines.

Local Abbreviation all_terminated := (Forall (λ s, terminated s = true)).

Lemma file_lines_app (l1 l2 : list string) :
  all_terminated l1 → file_lines l2 → file_lines (l1 ++ l2).
Proof.
  intros H1 H2. induction H1 as [|s l1 Hs _ IH]; [done|].
  cbn [app]. by apply file_lines_cons.
Qed.

(** Every line but the last one is terminated. *)
Lemma file_lines_take (l : list string) (n : nat) :
  file_lines l → (n < length l)%nat → all_terminated (take n l).
Proof.
  intros Hl. revert n. induction Hl as [|s Hs|s l Hs Hl IH]; intros n Hn.
  - cbn in Hn. lia.
  - cbn in Hn. replace n with 0%nat by lia. constructor.
  - destruct n as [|n]; [constructor|]. cbn [take].
    constructor; [done|]. apply IH. cbn in Hn. lia.
Qed.

Lemma file_lines_drop (l : list string) (n : nat) :
  file_lines l → file_lines (drop n l).
Proof.
  intros Hl. revert n. induction Hl as [|s Hs|s l Hs Hl IH]; intros [|n]; cbn [drop].
  - constructor.
  - constructor.
  - by constructor.
  - rewrite drop_nil. constructor.
  - by constructor.
  - apply IH.
Qed.

Lemma header_terminated : all_terminated header.
Proof. unfold header. repeat constructor. Qed.

Lemma concatenation_file_lines (lines : list string) (ps pe os oe : nat) :
  file_lines lines →
  (ps < length lines)%nat → (os < length lines)%nat → (oe < length lines)%nat →
  file_lines (concatenation lines ps pe os oe).
Proof.
  intros Hl Hps Hos Hoe. unfold concatenation.
  repeat apply file_lines_app.
  - by apply file_lines_take.
  - apply header_terminated.
  - apply Forall_drop. by apply file_lines_take.
  - apply Forall_drop. by apply file_lines_take.
  - by apply file_lines_drop.
Qed.

End file_lines.

(** ** What the reassembly keeps *)

Section coverage.

Variables (lines : list string) (ps pe os oe : nat).

(** A line at one of the index ranges taken by the slices is a line of
    the concatenation. *)
Lemma concatenation_covers (i : nat) (line : string) :
  lines !! i = Some line →
  (i < ps ∨ os ≤ i < oe ∨ pe ≤ i < os ∨ oe ≤ i)%nat →
  line ∈ concatenation lines ps pe os oe.
Proof.
  intros Hl Hi. unfold concatenation. rewrite !elem_of_app.
  destruct Hi as [Hi | [Hi | [Hi | Hi]]].
  - left. apply list_elem_of_lookup. exists i. by rewrite lookup_take_lt.
  - right; right; left. apply list_elem_of_lookup. exists (i - os)%nat.
    rewrite lookup_drop, lookup_take_lt by lia. rewrite <- Hl. f_equal. lia.
  - right; right; right; left. apply list_elem_of_lookup. exists (i - pe)%nat.
    rewrite lookup_drop, lookup_take_lt by lia. rewrite <- Hl. f_equal. lia.
  - right; right; right; right. apply list_elem_of_lookup. exists (i - oe)%nat.
    rewrite lookup_drop. rewrite <- Hl. f_equal. lia.
Qed.

(** The lines at [pe], [os] and [oe] are kept whatever the order of the
    indices. *)
Lemma concatenation_keeps_pe (line : string) :
  lines !! pe = Some line → line ∈ concatenation lines ps pe os oe.
Proof. intros Hl. apply (concatenation_covers pe); [done | lia]. Qed.

Lemma concatenation_keeps_os (line : string) :
  lines !! os = Some line → line ∈ concatenation lines ps pe os oe.
Proof. intros Hl. apply (concatenation_covers os); [done | lia]. Qed.

Lemma concatenation_keeps_oe (line : string) :
  lines !! oe = Some line → line ∈ concatenation lines ps pe os oe.
Proof. intros Hl. apply (concatenation_covers oe); [done | lia]. Qed.

Lemma concatenation_has_header (line : string) :
  line ∈ header → line ∈ concatenation lines ps pe os oe.
Proof. intros Hl. unfold concatenation. rewrite !elem_of_app. auto. Qed.

End coverage.

(** After a run that writes, every marker is again in some line. *)
Lemma markers_survive (lines new : list string) :
  transform lines = Some new →
  ∀ marker, marker ∈ markers → present marker new.
Proof.
  intros Ht. unfold transform in Ht.
  destruct (marker_missing (find_indices lines)) eqn:Hm; [done|].
  rewrite new_lines_concatenation in Ht by done. injection Ht as <-.
  destruct (found_lines lines Hm)
    as (_ & (l2 & H2 & O2) & (l3 & H3 & O3) & (l4 & H4 & O4)).
  intros m Hin. unfold markers in Hin.
  repeat (apply elem_of_cons in Hin as [->|Hin]).
  - exists (placeholder_start_marker +:+ nl). split; [|apply occurs_self_nl].
    apply concatenation_has_header. unfold header. elem_of_list.
  - exists l2. split; [by apply concatenation_keeps_pe | done].
  - exists l3. split; [by apply concatenation_keeps_os | done].
  - exists l4. split; [by apply concatenation_keeps_oe | done].
  - by apply elem_of_nil in Hin.
Qed.

Lemma transform_file_lines (lines new : list string) :
  file_lines lines → transform lines = Some new → file_lines new.
Proof.
  intros Hl Ht. unfold transform in Ht.
  destruct (marker_missing (find_indices lines)) eqn:Hm; [done|].
  rewrite new_lines_concatenation in Ht by done. injection Ht as <-.
  destruct (found_range_nat lines Hm) as (? & ? & ? & ?).
  by apply concatenation_file_lines.
Qed.

(** A second run on what a first run wrote finds the four markers. *)
Lemma transform_twice (lines new : list string) :
  transform lines = Some new → ∃ new', transform new = Some new'.
Proof.
  intros Ht. destruct (transform new) as [new'|] eqn:Ht'; [by exists new'|].
  apply transform_None in Ht' as (m & Hin & Hno).
  destruct Hno. by apply (markers_survive lines).
Qed.

(** ** The pieces of a document *)

Section pieces.

Context {A : Type}.
Implicit Types l : list A.

Lemma drop_split l (a b : nat) :
  (a ≤ b)%nat → (b ≤ length l)%nat →
  drop a l = drop a (take b l) ++ drop b l.
Proof.
  intros Hab Hb. rewrite <- (take_drop b l) at 1.
  rewrite drop_app, length_take.
  replace (a - b `min` length l)%nat with 0%nat by lia. done.
Qed.

Lemma take_split l (a b : nat) :
  (a ≤ b)%nat → take b l = take a l ++ drop a (take b l).
Proof.
  intros Hab. rewrite <- (take_drop a (take b l)) at 1.
  rewrite take_take. by replace (a `min` b)%nat with a by lia.
Qed.

End pieces.

Lemma length_concatenation_ordered (lines : list string) (ps pe os oe : nat) :
  (ps ≤ pe)%nat → (pe ≤ os)%nat → (os ≤ oe)%nat → (oe ≤ length lines)%nat →
  Z.of_nat (length (concatenation lines ps pe os oe))
  = Z.of_nat (length lines) + 6 - (Z.of_nat pe - Z.of_nat ps).
Proof.
  intros ? ? ? ?. rewrite length_concatenation by lia. lia.
Qed.

(** * The claims *)

(** C4: for each of the four markers, the index the scan leaves in its
    variable is the smallest index of a line in which the marker occurs as
    a substring; when the marker occurs in no line the variable keeps the
    sentinel [-1]. *)
Theorem scan_takes_first_match (lines : list string) :
  first_match placeholder_start_marker lines (placeholder_start (find_indices lines))
  ∧ first_match placeholder_end_marker lines (placeholder_end (find_indices lines))
  ∧ first_match orphaned_start_marker lines (orphaned_start (find_indices lines))
  ∧ first_match orphaned_end_marker lines (orphaned_end (find_indices lines)).
Proof. exact (find_indices_first_match lines). Qed.

(** C1: when all four markers are found, at first-match indices
    [ps < pe ≤ os < oe], the lines written are [lines[0:ps]], the six
    header lines, [lines[os:oe]], [lines[pe:os]] and [lines[oe:]], in that
    order. *)
Theorem reassembly_is_concatenation (lines : list string) :
  let ix := find_indices lines in
  let ps := Z.to_nat (placeholder_start ix) in
  let pe := Z.to_nat (placeholder_end ix) in
  let os := Z.to_nat (orphaned_start ix) in
  let oe := Z.to_nat (orphaned_end ix) in
  marker_missing ix = false →
  ordered ix →
  transform lines
  = Some (take ps lines ++ header ++ drop os (take oe lines)
            ++ drop pe (take os lines) ++ drop oe lines)
  ∧ length header = 6%nat.
Proof.
  cbv zeta. intros Hfound _. split; [|done].
  by rewrite (transform_concatenation lines Hfound).
Qed.

(** The concrete scenario of C1: the twenty-line fixture with the markers
    on lines 2, 5, 10 and 14. *)
Lemma reassembly_of_fixture20 :
  length fixture20 = 20%nat
  ∧ find_indices fixture20 = Indices 2 5 10 14
  ∧ transform fixture20
    = Some (take 2 fixture20 ++ header ++ drop 10 (take 14 fixture20)
              ++ drop 5 (take 10 fixture20) ++ drop 14 (take 20 fixture20)).
Proof.
  split; [reflexivity|]. split; [reflexivity|].
  refine (proj1 (reassembly_is_concatenation fixture20 _ _)).
  - reflexivity.
  - unfold ordered. vm_compute. repeat split; discriminate.
Defined.

(** What follows the header is a rearrangement of the lines from [pe] on. *)
Lemma moved_lines_permutation (lines : list string) (pe os oe : nat) :
  (pe ≤ os)%nat → (os ≤ oe)%nat → (oe ≤ length lines)%nat →
  drop os (take oe lines) ++ drop pe (take os lines) ++ drop oe lines
  ≡ₚ drop pe lines.
Proof.
  intros Hpe Hos Hoe.
  rewrite (drop_split lines pe os), (drop_split lines os oe) by lia.
  rewrite !app_assoc. apply Permutation_app_tail, Permutation_app_comm.
Qed.

(** C3, as the code has it: with [ps < pe ≤ os < oe] the count of lines
    written is the original count plus six minus [pe - ps], hence less
    than the original count plus six.  The document is [lines[0:ps]], the
    [pe - ps] lines at the positions from [ps] up to [pe], and
    [lines[pe:]]; what is written is a rearrangement of the six header
    lines, [lines[0:ps]] and [lines[pe:]]: the lines at the positions from
    [ps] up to [pe] are the ones not carried over. *)
Theorem line_count_when_ordered (lines : list string) :
  let ix := find_indices lines in
  let ps := Z.to_nat (placeholder_start ix) in
  let pe := Z.to_nat (placeholder_end ix) in
  marker_missing ix = false →
  ordered ix →
  ∃ new, transform lines = Some new
         ∧ len new = len lines + 6 - (placeholder_end ix - placeholder_start ix)
         ∧ len new < len lines + 6
         ∧ lines = take ps lines ++ placeholder_block lines ps pe ++ drop pe lines
         ∧ len (placeholder_block lines ps pe)
           = placeholder_end ix - placeholder_start ix
         ∧ new ≡ₚ header ++ take ps lines ++ drop pe lines.
Proof.
  cbv zeta. intros Hfound Hord.
  eexists. split; [by apply transform_concatenation|].
  destruct (found_range lines Hfound) as (? & ? & ? & ?).
  destruct Hord as (? & ? & ?). unfold len in *.
  split; [rewrite length_concatenation_ordered by lia; lia|].
  split; [rewrite length_concatenation_ordered by lia; lia|].
  split.
  { unfold placeholder_block. rewrite app_assoc, <- take_split by lia.
    by rewrite take_drop. }
  split.
  { unfold placeholder_block. rewrite length_drop, length_take. lia. }
  unfold concatenation. rewrite Permutation_app_swap_app.
  do 2 apply Permutation_app_head.
  apply moved_lines_permutation; lia.
Qed.

Lemma line_count_of_fixture20 :
  ∃ new, transform fixture20 = Some new
         ∧ len new = len fixture20 + 6 - (5 - 2)
         ∧ len new < len fixture20 + 6
         ∧ fixture20
           = take 2 fixture20 ++ placeholder_block fixture20 2 5 ++ drop 5 fixture20
         ∧ len (placeholder_block fixture20 2 5) = 5 - 2
         ∧ new ≡ₚ header ++ take 2 fixture20 ++ drop 5 fixture20.
Proof.
  refine (line_count_when_ordered fixture20 _ _).
  - reflexivity.
  - unfold ordered. vm_compute. repeat split; discriminate.
Defined.

(** C3 as stated fails: the fixture has 20 lines and 23 are written, not
    26. *)
Lemma line_count_is_not_original_plus_header :
  marker_missing (find_indices fixture20) = false
  ∧ find_indices fixture20 = Indices 2 5 10 14
  ∧ (len <$> transform fixture20) = Some 23
  ∧ len fixture20 + Z.of_nat (length header) = 26
  ∧ ((λ new, len new =? len fixture20 + Z.of_nat (length header))
       <$> transform fixture20) = Some false.
Proof. split_and!; vm_compute; reflexivity. Qed.

(** C8: with [ps ≤ pe ≤ os ≤ oe] the count of lines written is the original
    count plus six minus [pe - ps]: the document is [lines[0:ps]], the
    placeholder block [lines[ps:pe]] and [lines[pe:]]; what is written is
    [lines[0:ps]], the six header lines and a rearrangement of
    [lines[pe:]]. *)
Theorem placeholder_block_replaced (lines : list string) :
  let ix := find_indices lines in
  let ps := Z.to_nat (placeholder_start ix) in
  let pe := Z.to_nat (placeholder_end ix) in
  marker_missing ix = false →
  weakly_ordered ix →
  ∃ new rest,
    transform lines = Some new
    ∧ len new = len lines + 6 - (placeholder_end ix - placeholder_start ix)
    ∧ lines = take ps lines ++ placeholder_block lines ps pe ++ drop pe lines
    ∧ len (placeholder_block lines ps pe) = placeholder_end ix - placeholder_start ix
    ∧ new = take ps lines ++ header ++ rest
    ∧ rest ≡ₚ drop pe lines
    ∧ length header = 6%nat.
Proof.
  cbv zeta. intros Hfound Hord.
  destruct (found_range lines Hfound) as (? & ? & ? & ?).
  destruct Hord as (? & ? & ?). unfold len in *.
  eexists _, _. split; [by apply transform_concatenation|].
  split; [rewrite length_concatenation_ordered by lia; lia|].
  split.
  { unfold placeholder_block. rewrite app_assoc, <- take_split by lia.
    by rewrite take_drop. }
  split.
  { unfold placeholder_block. rewrite length_drop, length_take. lia. }
  split; [reflexivity|]. split; [|done].
  rewrite (drop_split lines (Z.to_nat (placeholder_end (find_indices lines)))
             (Z.to_nat (orphaned_start (find_indices lines)))) by lia.
  rewrite (drop_split lines (Z.to_nat (orphaned_start (find_indices lines)))
             (Z.to_nat (orphaned_end (find_indices lines)))) by lia.
  rewrite !app_assoc. apply Permutation_app_tail, Permutation_app_comm.
Qed.

Lemma placeholder_block_of_fixture20 :
  ∃ new rest,
    transform fixture20 = Some new
    ∧ len new = len fixture20 + 6 - (5 - 2)
    ∧ fixture20 = take 2 fixture20 ++ placeholder_block fixture20 2 5 ++ drop 5 fixture20
    ∧ len (placeholder_block fixture20 2 5) = 5 - 2
    ∧ new = take 2 fixture20 ++ header ++ rest
    ∧ rest ≡ₚ drop 5 fixture20
    ∧ length header = 6%nat.
Proof.
  refine (placeholder_block_replaced fixture20 _ _).
  - reflexivity.
  - unfold weakly_ordered. vm_compute. repeat split; discriminate.
Defined.

(** C2: when one of the four markers occurs in no line of the file, the
    run prints the indices and the error message, ends with status 1 and
    leaves every file as it was: nothing is written. *)
Theorem missing_marker_aborts (w : world) (text marker : string) :
  files w !! file_path = Some text →
  marker ∈ markers →
  (∀ line, line ∈ readlines text → ¬ occurs marker line) →
  snd (main w) = Exit 1
  ∧ files (fst (main w)) = files w
  ∧ console (fst (main w))
    = console w ++ [indices_message (find_indices (readlines text)); error_message].
Proof.
  intros Hf Hin Hno.
  assert (transform (readlines text) = None) as Ht.
  { apply transform_None. exists marker. split; [done|].
    intros (line & Hl & Hocc). by apply (Hno line). }
  by rewrite (main_abort w text Hf Ht).
Qed.

Lemma fixture_missing_lines : readlines (writelines fixture_missing) = fixture_missing.
Proof. reflexivity. Qed.

Lemma missing_marker_aborts_fixture :
  snd (main (world_of fixture_missing)) = Exit 1
  ∧ files (fst (main (world_of fixture_missing))) = files (world_of fixture_missing)
  ∧ console (fst (main (world_of fixture_missing)))
    = console (world_of fixture_missing)
      ++ [indices_message (find_indices (readlines (writelines fixture_missing)));
          error_message].
Proof.
  refine (missing_marker_aborts (world_of fixture_missing)
            (writelines fixture_missing) orphaned_end_marker _ _ _).
  - reflexivity.
  - unfold markers. elem_of_list.
  - intros line Hin. apply str_in_not_occurs.
    rewrite fixture_missing_lines in Hin. unfold fixture_missing in Hin.
    repeat (apply elem_of_cons in Hin as [->|Hin]; [reflexivity|]).
    by apply elem_of_nil in Hin.
Defined.

(** C6: when each of the four markers occurs in some line, whatever the
    order of the first-match indices, the run ends with status 0 and
    writes the concatenation given by the same slices. *)
Theorem no_abort_on_order (w : world) (text : string) :
  let lines := readlines text in
  let ix := find_indices lines in
  files w !! file_path = Some text →
  (∀ marker, marker ∈ markers → present marker lines) →
  snd (main w) = Exit 0
  ∧ transform lines = Some (new_lines lines ix)
  ∧ files (fst (main w))
    = <[file_path := writelines
          (concatenation lines
             (Z.to_nat (placeholder_start ix)) (Z.to_nat (placeholder_end ix))
             (Z.to_nat (orphaned_start ix)) (Z.to_nat (orphaned_end ix)))]>
      (files w).
Proof.
  cbv zeta. intros Hf Hall.
  apply marker_missing_present in Hall.
  pose proof (transform_concatenation _ Hall) as Ht.
  rewrite (main_write w text _ Hf Ht). split; [done|]. split; [|done].
  by rewrite Ht, new_lines_concatenation.
Qed.

Lemma fixture_out_of_order_lines :
  readlines (writelines fixture_out_of_order) = fixture_out_of_order.
Proof. reflexivity. Qed.

Lemma no_abort_on_order_fixture :
  orphaned_start (find_indices fixture_out_of_order) = 0
  ∧ placeholder_end (find_indices fixture_out_of_order) = 3
  ∧ snd (main (world_of fixture_out_of_order)) = Exit 0
  ∧ files (fst (main (world_of fixture_out_of_order)))
    = <[file_path := writelines (concatenation fixture_out_of_order 1 3 0 2)]>
      (files (world_of fixture_out_of_order)).
Proof.
  split; [reflexivity|]. split; [reflexivity|].
  pose proof (no_abort_on_order (world_of fixture_out_of_order)
                (writelines fixture_out_of_order) eq_refl) as H.
  cbv zeta in H. rewrite fixture_out_of_order_lines in H.
  destruct H as (H1 & _ & H3).
  - apply marker_missing_present. reflexivity.
  - split; [exact H1 | exact H3].
Defined.




(** C9: after a run with all four markers found at [ps < pe ≤ os < oe],
    each of the four markers occurs in some line written: line [ps] of the
    output is the first header line, which is the text of the
    [placeholder_start] marker followed by a newline, and the lines at
    [pe], [os] and [oe] are all among the lines written. *)
Theorem markers_remain_after_run (lines : list string) :
  let ix := find_indices lines in
  let ps := Z.to_nat (placeholder_start ix) in
  let pe := Z.to_nat (placeholder_end ix) in
  let os := Z.to_nat (orphaned_start ix) in
  let oe := Z.to_nat (orphaned_end ix) in
  marker_missing ix = false →
  ordered ix →
  ∃ new,
    transform lines = Some new
    ∧ (∀ marker, marker ∈ markers → present marker new)
    ∧ header !! 0%nat = Some (placeholder_start_marker +:+ nl)
    ∧ new !! ps = header !! 0%nat
    ∧ (∃ line, lines !! pe = Some line ∧ occurs placeholder_end_marker line ∧ line ∈ new)
    ∧ (∃ line, lines !! os = Some line ∧ occurs orphaned_start_marker line ∧ line ∈ new)
    ∧ (∃ line, lines !! oe = Some line ∧ occurs orphaned_end_marker line ∧ line ∈ new).
Proof.
  cbv zeta. intros Hfound _.
  pose proof (transform_concatenation lines Hfound) as Ht.
  destruct (found_range_nat lines Hfound) as (Hps & _ & _ & _).
  destruct (found_lines lines Hfound)
    as (_ & (l2 & H2 & O2) & (l3 & H3 & O3) & (l4 & H4 & O4)).
  eexists. split; [exact Ht|].
  split; [by apply (markers_survive lines)|].
  split; [done|]. split.
  { unfold concatenation. rewrite lookup_app_r by (rewrite length_take; lia).
    rewrite length_take.
    by replace (_ - _)%nat with 0%nat by lia. }
  split_and!.
  - exists l2. split_and!; [done | done | by apply concatenation_keeps_pe].
  - exists l3. split_and!; [done | done | by apply concatenation_keeps_os].
  - exists l4. split_and!; [done | done | by apply concatenation_keeps_oe].
Qed.

Lemma markers_remain_after_fixture20 :
  ∃ new,
    transform fixture20 = Some new
    ∧ (∀ marker, marker ∈ markers → present marker new)
    ∧ header !! 0%nat = Some (placeholder_start_marker +:+ nl)
    ∧ new !! 2%nat = header !! 0%nat
    ∧ (∃ line, fixture20 !! 5%nat = Some line
               ∧ occurs placeholder_end_marker line ∧ line ∈ new)
    ∧ (∃ line, fixture20 !! 10%nat = Some line
               ∧ occurs orphaned_start_marker line ∧ line ∈ new)
    ∧ (∃ line, fixture20 !! 14%nat = Some line
               ∧ occurs orphaned_end_marker line ∧ line ∈ new).
Proof.
  refine (markers_remain_after_run fixture20 _ _).
  - reflexivity.
  - unfold ordered. vm_compute. repeat split; discriminate.
Defined.

(** Two runs in a row, when the first one writes. *)
Lemma main_twice (w : world) (text : string) (new : list string) :
  files w !! file_path = Some text →
  transform (readlines text) = Some new →
  ∃ new', transform new = Some new'
          ∧ main (fst (main w))
            = (World (<[file_path := writelines new']> (files w))
                     (console w ++ report (readlines text) new ++ report new new'),
               Exit 0).
Proof.
  intros Hf Ht. destruct (transform_twice _ _ Ht) as [new' Ht'].
  exists new'. split; [done|].
  rewrite (main_write w text new Hf Ht). cbn [fst].
  assert (readlines (writelines new) = new) as Hrw.
  { apply readlines_writelines.
    apply (transform_file_lines (readlines text)); [apply readlines_file_lines | done]. }
  rewrite (main_write _ (writelines new) new').
  - cbn [files console]. by rewrite insert_insert_eq, <- app_assoc, Hrw.
  - cbn [files]. apply lookup_insert_eq.
  - by rewrite Hrw.
Qed.

(** C5, as the code has it: a second run on what a first run wrote, the
    first one with all four markers found at [ps < pe ≤ os < oe], does not
    abort: it finds the four markers again, ends with status 0 and
    rewrites the file. *)
Theorem second_run_does_not_abort (w : world) (text : string) :
  let ix := find_indices (readlines text) in
  files w !! file_path = Some text →
  marker_missing ix = false →
  ordered ix →
  snd (main w) = Exit 0
  ∧ snd (main (fst (main w))) = Exit 0
  ∧ ∃ new new',
      transform (readlines text) = Some new
      ∧ files (fst (main w)) !! file_path = Some (writelines new)
      ∧ readlines (writelines new) = new
      ∧ transform new = Some new'
      ∧ files (fst (main (fst (main w)))) = <[file_path := writelines new']> (files w).
Proof.
  cbv zeta. intros Hf Hfound _.
  pose proof (transform_concatenation _ Hfound) as Ht.
  destruct (main_twice w text _ Hf Ht) as (new' & Ht' & Hrun2).
  rewrite Hrun2. rewrite (main_write w text _ Hf Ht). cbn [fst snd files].
  split; [done|]. split; [done|]. eexists _, new'.
  split; [exact Ht|]. split; [apply lookup_insert_eq|].
  split; [|done].
  apply readlines_writelines.
  apply (transform_file_lines (readlines text)); [apply readlines_file_lines | done].
Qed.

Lemma fixture20_lines : readlines (writelines fixture20) = fixture20.
Proof. reflexivity. Qed.

Lemma second_run_on_fixture20 :
  snd (main (world_of fixture20)) = Exit 0
  ∧ snd (main (fst (main (world_of fixture20)))) = Exit 0
  ∧ ∃ new new',
      transform (readlines (writelines fixture20)) = Some new
      ∧ files (fst (main (world_of fixture20))) !! file_path = Some (writelines new)
      ∧ readlines (writelines new) = new
      ∧ transform new = Some new'
      ∧ files (fst (main (fst (main (world_of fixture20)))))
        = <[file_path := writelines new']> (files (world_of fixture20)).
Proof.
  refine (second_run_does_not_abort (world_of fixture20) (writelines fixture20) _ _ _).
  - reflexivity.
  - reflexivity.
  - unfold ordered. vm_compute. repeat split; discriminate.
Defined.

(** C5 as stated fails: on the fixture the first run finds the markers at
    2, 5, 10 and 14 and writes, and the second run finds them at 2, 12, 8
    and 17 and writes again. *)
Lemma second_run_finds_all_markers :
  find_indices fixture20 = Indices 2 5 10 14
  ∧ snd (main (world_of fixture20)) = Exit 0
  ∧ (find_indices <$> transform fixture20) = Some (Indices 2 12 8 17)
  ∧ ((λ new, marker_missing (find_indices new)) <$> transform fixture20) = Some false
  ∧ from_option (λ _, true) false (transform fixture20 ≫= transform) = true
  ∧ snd (main (fst (main (world_of fixture20)))) = Exit 0.
Proof. split_and!; vm_compute; reflexivity. Qed.

(** * Further properties of the script *)

(** ** First matches in longer documents *)

Section first_match_more.

Variable marker : string.

Lemma first_match_unique (lines : list string) (k k' : Z) :
  first_match marker lines k → first_match marker lines k' → k = k'.
Proof.
  intros [[-> Hall] | (n & line & -> & Hn & Hocc & Hmin)]
         [[-> Hall'] | (n' & line' & -> & Hn' & Hocc' & Hmin')].
  - done.
  - destruct (Hall line'); [|done]. apply list_elem_of_lookup. eauto.
  - destruct (Hall' line); [|done]. apply list_elem_of_lookup. eauto.
  - destruct (Nat.lt_trichotomy n n') as [Hlt | [-> | Hlt]]; [|done|].
    + by destruct (Hmin' n line Hlt Hn).
    + by destruct (Hmin n' line' Hlt Hn').
Qed.

(** Lines added after a match do not move it. *)
Lemma first_match_app_l (lines more : list string) (k : Z) :
  first_match marker lines k → k ≠ -1 → first_match marker (lines ++ more) k.
Proof.
  intros [[-> _] | (n & line & -> & Hn & Hocc & Hmin)] Hk; [done|].
  right. exists n, line. split_and!; [done | by apply lookup_app_l_Some | done |].
  intros j line' Hj Hl. apply (Hmin j line' Hj).
  rewrite lookup_app_l in Hl; [done|]. apply lookup_lt_Some in Hn. lia.
Qed.

(** Lines without the marker added in front shift the match by their
    number. *)
Lemma first_match_app_r (pre lines : list string) (k : Z) :
  (∀ line, line ∈ pre → ¬ occurs marker line) →
  first_match marker lines k → k ≠ -1 →
  first_match marker (pre ++ lines) (k + Z.of_nat (length pre)).
Proof.
  intros Hpre [[-> _] | (n & line & -> & Hn & Hocc & Hmin)] Hk; [done|].
  right. exists (length pre + n)%nat, line. split_and!; [lia | | done |].
  - rewrite lookup_app_r by lia. rewrite <- Hn. f_equal. lia.
  - intros j line' Hj Hl. destruct (decide (j < length pre)%nat) as [Hlt|Hge].
    + rewrite lookup_app_l in Hl by done. apply Hpre.
      apply list_elem_of_lookup. eauto.
    + rewrite lookup_app_r in Hl by lia. apply (Hmin (j - length pre)%nat); [lia | done].
Qed.

End first_match_more.

Lemma indices_eq (ix ix' : indices) :
  placeholder_start ix = placeholder_start ix' →
  placeholder_end ix = placeholder_end ix' →
  orphaned_start ix = orphaned_start ix' →
  orphaned_end ix = orphaned_end ix' →
  ix = ix'.
Proof. destruct ix, ix'. cbn. congruence. Qed.

Lemma find_indices_app (lines more : list string) :
  marker_missing (find_indices lines) = false →
  find_indices (lines ++ more) = find_indices lines.
Proof.
  intros Hfound. apply marker_missing_false in Hfound as (N1 & N2 & N3 & N4).
  destruct (find_indices_first_match lines) as (H1 & H2 & H3 & H4).
  destruct (find_indices_first_match (lines ++ more)) as (G1 & G2 & G3 & G4).
  apply indices_eq.
  - apply (first_match_unique _ _ _ _ G1). by apply first_match_app_l.
  - apply (first_match_unique _ _ _ _ G2). by apply first_match_app_l.
  - apply (first_match_unique _ _ _ _ G3). by apply first_match_app_l.
  - apply (first_match_unique _ _ _ _ G4). by apply first_match_app_l.
Qed.

Lemma find_indices_prepend (pre lines : list string) :
  (∀ marker, marker ∈ markers → ¬ present marker pre) →
  marker_missing (find_indices lines) = false →
  find_indices (pre ++ lines)
  = Indices (placeholder_start (find_indices lines) + len pre)
            (placeholder_end (find_indices lines) + len pre)
            (orphaned_start (find_indices lines) + len pre)
            (orphaned_end (find_indices lines) + len pre).
Proof.
  intros Hpre Hfound. apply marker_missing_false in Hfound as (N1 & N2 & N3 & N4).
  destruct (find_indices_first_match lines) as (H1 & H2 & H3 & H4).
  destruct (find_indices_first_match (pre ++ lines)) as (G1 & G2 & G3 & G4).
  assert (∀ marker, marker ∈ markers →
            ∀ line, line ∈ pre → ¬ occurs marker line) as Hno.
  { intros m Hm line Hin Hocc. apply (Hpre m Hm). by exists line. }
  apply indices_eq; cbn [placeholder_start placeholder_end orphaned_start orphaned_end].
  - apply (first_match_unique _ _ _ _ G1).
    apply first_match_app_r; [apply Hno; unfold markers; elem_of_list | done | done].
  - apply (first_match_unique _ _ _ _ G2).
    apply first_match_app_r; [apply Hno; unfold markers; elem_of_list | done | done].
  - apply (first_match_unique _ _ _ _ G3).
    apply first_match_app_r; [apply Hno; unfold markers; elem_of_list | done | done].
  - apply (first_match_unique _ _ _ _ G4).
    apply first_match_app_r; [apply Hno; unfold markers; elem_of_list | done | done].
Qed.

(** ** The concatenation of longer documents *)

Lemma concatenation_app (lines more : list string) (ps pe os oe : nat) :
  (ps ≤ length lines)%nat → (os ≤ length lines)%nat → (oe ≤ length lines)%nat →
  concatenation (lines ++ more) ps pe os oe
  = concatenation lines ps pe os oe ++ more.
Proof.
  intros Hps Hos Hoe. unfold concatenation.
  rewrite !take_app_le, drop_app_le by lia. by rewrite <- !app_assoc.
Qed.

Lemma concatenation_prepend (pre lines : list string) (ps pe os oe : nat) :
  concatenation (pre ++ lines) (length pre + ps) (length pre + pe)
                (length pre + os) (length pre + oe)
  = pre ++ concatenation lines ps pe os oe.
Proof.
  unfold concatenation.
  rewrite !take_app_add, !drop_app_add. by rewrite <- !app_assoc.
Qed.

Lemma first_match_range (marker : string) (lines : list string) (k : Z) :
  first_match marker lines k → k = -1 ∨ 0 ≤ k < len lines.
Proof.
  intros Hfm. destruct (decide (k = -1)) as [->|Hk]; [by left|]. right.
  by destruct (first_match_found Hfm Hk) as (_ & _ & _ & ?).
Qed.

Lemma last_drop_lt {A} (l : list A) (n : nat) :
  (n < length l)%nat → last (drop n l) = last l.
Proof.
  intros Hn. rewrite !last_lookup, lookup_drop, length_drop. f_equal. lia.
Qed.

Lemma concatenation_prefix (lines : list string) (ps pe os oe : nat) :
  (ps ≤ length lines)%nat →
  take ps (concatenation lines ps pe os oe) = take ps lines
  ∧ take 6 (drop ps (concatenation lines ps pe os oe)) = header.
Proof.
  intros Hps. unfold concatenation.
  assert (ps = length (take ps lines)) as Hlen by (rewrite length_take; lia).
  split.
  - by apply take_app_length'.
  - rewrite drop_app_length' by done. by apply take_app_length'.
Qed.

Lemma concatenation_last (lines : list string) (ps pe os oe : nat) :
  (oe < length lines)%nat →
  last (concatenation lines ps pe os oe) = last lines.
Proof.
  intros Hoe. unfold concatenation. rewrite !app_assoc, last_app.
  rewrite last_drop_lt by done. destruct (last lines) eqn:Hl; [done|].
  apply last_None in Hl. subst lines. cbn in Hoe. lia.
Qed.

Lemma transform_Some (lines new : list string) :
  transform lines = Some new →
  marker_missing (find_indices lines) = false
  ∧ new = concatenation lines
            (Z.to_nat (placeholder_start (find_indices lines)))
            (Z.to_nat (placeholder_end (find_indices lines)))
            (Z.to_nat (orphaned_start (find_indices lines)))
            (Z.to_nat (orphaned_end (find_indices lines))).
Proof.
  intros Ht. unfold transform in Ht.
  destruct (marker_missing (find_indices lines)) eqn:Hm; [done|].
  rewrite new_lines_concatenation in Ht by done. by injection Ht as <-.
Qed.

(** X1: a run reads and writes one path only: every other file is after
    the run what it was before, whether the run raises, aborts or
    writes. *)
Theorem run_leaves_other_files (w : world) (path : string) :
  path ≠ file_path → files (fst (main w)) !! path = files w !! path.
Proof.
  intros Hne. destruct (files w !! file_path) as [text|] eqn:Hf.
  - destruct (transform (readlines text)) as [new|] eqn:Ht.
    + rewrite (main_write w text new Hf Ht). cbn [fst files].
      by rewrite lookup_insert_ne.
    + by rewrite (main_abort w text Hf Ht).
  - by rewrite (main_missing_file w Hf).
Qed.

Lemma run_leaves_notes_file :
  files (fst (main (world_of fixture20))) !! "notes.txt"
  = files (world_of fixture20) !! "notes.txt".
Proof.
  apply (run_leaves_other_files (world_of fixture20) "notes.txt").
  unfold file_path. discriminate.
Defined.

(** X3: a run that ends with status 0 found the file, found every marker
    in some line of it, and left in it the lines assembled from the
    slices. *)
Theorem status_zero_means_found_and_written (w : world) :
  snd (main w) = Exit 0 →
  ∃ text,
    files w !! file_path = Some text
    ∧ (∀ marker, marker ∈ markers → present marker (readlines text))
    ∧ files (fst (main w))
      = <[file_path := writelines
            (concatenation (readlines text)
               (Z.to_nat (placeholder_start (find_indices (readlines text))))
               (Z.to_nat (placeholder_end (find_indices (readlines text))))
               (Z.to_nat (orphaned_start (find_indices (readlines text))))
               (Z.to_nat (orphaned_end (find_indices (readlines text)))))]>
        (files w).
Proof.
  intros Hexit. destruct (files w !! file_path) as [text|] eqn:Hf.
  - exists text. split; [done|].
    destruct (transform (readlines text)) as [new|] eqn:Ht.
    + destruct (transform_Some _ _ Ht) as [Hm Hnew].
      split; [by apply marker_missing_present|].
      rewrite (main_write w text new Hf Ht). cbn [fst files]. by rewrite Hnew.
    + rewrite (main_abort w text Hf Ht) in Hexit. discriminate Hexit.
  - rewrite (main_missing_file w Hf) in Hexit. discriminate Hexit.
Qed.

Lemma status_zero_of_fixture_out_of_order :
  ∃ text,
    files (world_of fixture_out_of_order) !! file_path = Some text
    ∧ (∀ marker, marker ∈ markers → present marker (readlines text))
    ∧ files (fst (main (world_of fixture_out_of_order)))
      = <[file_path := writelines
            (concatenation (readlines text)
               (Z.to_nat (placeholder_start (find_indices (readlines text))))
               (Z.to_nat (placeholder_end (find_indices (readlines text))))
               (Z.to_nat (orphaned_start (find_indices (readlines text))))
               (Z.to_nat (orphaned_end (find_indices (readlines text)))))]>
        (files (world_of fixture_out_of_order)).
Proof.
  refine (status_zero_means_found_and_written (world_of fixture_out_of_order) _).
  reflexivity.
Defined.

(** X4: each index the scan leaves is the sentinel [-1] or a valid index
    into the lines, never anything else. *)
Theorem indices_in_range (lines : list string) :
  let ix := find_indices lines in
  (placeholder_start ix = -1 ∨ 0 ≤ placeholder_start ix < len lines)
  ∧ (placeholder_end ix = -1 ∨ 0 ≤ placeholder_end ix < len lines)
  ∧ (orphaned_start ix = -1 ∨ 0 ≤ orphaned_start ix < len lines)
  ∧ (orphaned_end ix = -1 ∨ 0 ≤ orphaned_end ix < len lines).
Proof.
  cbv zeta. destruct (find_indices_first_match lines) as (H1 & H2 & H3 & H4).
  split; [|split; [|split]]; eapply first_match_range; eassumption.
Qed.

Lemma written_file_lines_read_back (w : world) (text : string) (new : list string) :
  files w !! file_path = Some text →
  transform (readlines text) = Some new →
  files (fst (main w)) !! file_path = Some (writelines new)
  ∧ readlines (writelines new) = new.
Proof.
  intros Hf Ht. rewrite (main_write w text new Hf Ht). cbn [fst files].
  split; [apply lookup_insert_eq|].
  apply readlines_writelines.
  apply (transform_file_lines (readlines text)); [apply readlines_file_lines | done].
Qed.

(** X5: the text a run writes reads back, line for line, as the lines it
    assembled, whatever the order of the indices: no two lines are glued
    together, since the only line that may lack a newline, the last one of
    the file, is also the last one written. *)
Theorem written_file_reads_back (w : world) (text : string) (new : list string) :
  files w !! file_path = Some text →
  transform (readlines text) = Some new →
  files (fst (main w)) !! file_path = Some (writelines new)
  ∧ readlines (writelines new) = new.
Proof. exact (written_file_lines_read_back w text new). Qed.

Lemma written_file_reads_back_out_of_order :
  files (fst (main (world_of fixture_out_of_order))) !! file_path
  = Some (writelines (concatenation fixture_out_of_order 1 3 0 2))
  ∧ readlines (writelines (concatenation fixture_out_of_order 1 3 0 2))
    = concatenation fixture_out_of_order 1 3 0 2.
Proof.
  refine (written_file_reads_back (world_of fixture_out_of_order)
            (writelines fixture_out_of_order) _ _ _); reflexivity.
Defined.

(** X6: a run invents no line: every line written is one of the six
    header lines or a line of the document read. *)
Theorem output_lines_from_input_or_header (lines new : list string) :
  transform lines = Some new →
  Forall (λ line, line ∈ header ∨ line ∈ lines) new.
Proof.
  intros Ht. destruct (transform_Some _ _ Ht) as [_ ->].
  assert (Forall (λ line, line ∈ header ∨ line ∈ lines) lines) as Hl.
  { apply Forall_forall. auto. }
  unfold concatenation. repeat apply Forall_app_2.
  - by apply Forall_take.
  - apply Forall_forall. auto.
  - by apply Forall_drop, Forall_take.
  - by apply Forall_drop, Forall_take.
  - by apply Forall_drop.
Qed.

Lemma output_lines_of_out_of_order :
  Forall (λ line, line ∈ header ∨ line ∈ fixture_out_of_order)
         (concatenation fixture_out_of_order 1 3 0 2).
Proof.
  refine (output_lines_from_input_or_header fixture_out_of_order _ _).
  reflexivity.
Defined.

(** X7: whatever the order of the indices, the lines before
    [placeholder_start] stay where they were, the six header lines follow
    them, and the last line of the document is the last line written. *)
Theorem prefix_header_and_last_line_in_place (lines new : list string) :
  transform lines = Some new →
  let ps := Z.to_nat (placeholder_start (find_indices lines)) in
  take ps new = take ps lines
  ∧ take 6 (drop ps new) = header
  ∧ last new = last lines.
Proof.
  intros Ht. cbv zeta. destruct (transform_Some _ _ Ht) as [Hm ->].
  destruct (found_range_nat lines Hm) as (? & _ & _ & ?).
  split; [|split].
  - apply concatenation_prefix. lia.
  - apply concatenation_prefix. lia.
  - by apply concatenation_last.
Qed.

Lemma prefix_header_and_last_line_out_of_order :
  take 1 (concatenation fixture_out_of_order 1 3 0 2) = take 1 fixture_out_of_order
  ∧ take 6 (drop 1 (concatenation fixture_out_of_order 1 3 0 2)) = header
  ∧ last (concatenation fixture_out_of_order 1 3 0 2) = last fixture_out_of_order.
Proof.
  refine (prefix_header_and_last_line_in_place fixture_out_of_order _ _).
  reflexivity.
Defined.

(** X8: the count of lines written in any order of the indices: the
    [ps] lines before the placeholder, the six header lines, the lines
    from [os] up to [oe] and from [pe] up to [os], each range empty when
    its bounds are inverted, and the lines from [oe] on. *)
Theorem line_count_any_order (lines new : list string) :
  transform lines = Some new →
  let ix := find_indices lines in
  len new
  = placeholder_start ix + 6
    + Z.max 0 (orphaned_end ix - orphaned_start ix)
    + Z.max 0 (orphaned_start ix - placeholder_end ix)
    + (len lines - orphaned_end ix).
Proof.
  intros Ht. cbv zeta. destruct (transform_Some _ _ Ht) as [Hm ->].
  destruct (found_range lines Hm) as (? & ? & ? & ?). unfold len in *.
  rewrite length_concatenation by lia. lia.
Qed.

Lemma line_count_out_of_order :
  len (concatenation fixture_out_of_order 1 3 0 2)
  = 1 + 6 + Z.max 0 (2 - 0) + Z.max 0 (0 - 3) + (len fixture_out_of_order - 2).
Proof.
  refine (line_count_any_order fixture_out_of_order _ _). reflexivity.
Defined.

(** X9: lines added at the end of a document on which the run writes do
    not change the indices, even when they carry markers again, and are
    added at the end of what is written. *)
Theorem appended_lines_are_appended (lines more new : list string) :
  transform lines = Some new →
  find_indices (lines ++ more) = find_indices lines
  ∧ transform (lines ++ more) = Some (new ++ more).
Proof.
  intros Ht. destruct (transform_Some _ _ Ht) as [Hm ->].
  pose proof (find_indices_app lines more Hm) as Hix.
  split; [done|].
  assert (marker_missing (find_indices (lines ++ more)) = false) as Hm'
    by (by rewrite Hix).
  rewrite (transform_concatenation _ Hm'), Hix.
  destruct (found_range_nat lines Hm) as (? & ? & ? & ?).
  by rewrite concatenation_app by lia.
Qed.

Lemma appended_lines_after_out_of_order :
  find_indices (take 4 fixture_out_of_order
                  ++ [ln placeholder_end_marker; ln orphaned_start_marker; "</html>"])
  = find_indices (take 4 fixture_out_of_order)
  ∧ transform (take 4 fixture_out_of_order
                 ++ [ln placeholder_end_marker; ln orphaned_start_marker; "</html>"])
    = Some (concatenation (take 4 fixture_out_of_order) 1 3 0 2
              ++ [ln placeholder_end_marker; ln orphaned_start_marker; "</html>"]).
Proof.
  refine (appended_lines_are_appended (take 4 fixture_out_of_order) _ _ _).
  reflexivity.
Defined.

(** X10: lines without any marker added in front of a document on which
    the run writes shift every index by their number and are added in
    front of what is written. *)
Theorem prepended_lines_are_prepended (pre lines new : list string) :
  (∀ marker, marker ∈ markers → ¬ present marker pre) →
  transform lines = Some new →
  find_indices (pre ++ lines)
  = Indices (placeholder_start (find_indices lines) + len pre)
            (placeholder_end (find_indices lines) + len pre)
            (orphaned_start (find_indices lines) + len pre)
            (orphaned_end (find_indices lines) + len pre)
  ∧ transform (pre ++ lines) = Some (pre ++ new).
Proof.
  intros Hpre Ht. destruct (transform_Some _ _ Ht) as [Hm ->].
  pose proof (find_indices_prepend pre lines Hpre Hm) as Hix.
  split; [done|].
  destruct (found_range lines Hm) as (? & ? & ? & ?). unfold len in *.
  assert (marker_missing (find_indices (pre ++ lines)) = false) as Hm'.
  { rewrite Hix. apply marker_missing_false.
    cbn [placeholder_start placeholder_end orphaned_start orphaned_end]. lia. }
  rewrite (transform_concatenation _ Hm'), Hix.
  cbn [placeholder_start placeholder_end orphaned_start orphaned_end].
  rewrite <- concatenation_prepend. f_equal. f_equal; lia.
Qed.

Lemma prepended_lines_before_out_of_order :
  find_indices ([ln "<!DOCTYPE html>"; ln "<body>"] ++ fixture_out_of_order)
  = Indices (1 + 2) (3 + 2) (0 + 2) (2 + 2)
  ∧ transform ([ln "<!DOCTYPE html>"; ln "<body>"] ++ fixture_out_of_order)
    = Some ([ln "<!DOCTYPE html>"; ln "<body>"]
              ++ concatenation fixture_out_of_order 1 3 0 2).
Proof.
  refine (prepended_lines_are_prepended [ln "<!DOCTYPE html>"; ln "<body>"]
            fixture_out_of_order _ _ _); [|reflexivity].
  intros m Hm (line & Hin & Hocc). revert Hocc. apply str_in_not_occurs.
  unfold markers in Hm.
  repeat (apply elem_of_cons in Hm as [->|Hm]);
    [| | | | by apply elem_of_nil in Hm];
    (repeat (apply elem_of_cons in Hin as [->|Hin]; [reflexivity|]);
     by apply elem_of_nil in Hin).
Defined.

(** X11: a second run finds the [placeholder_start] marker where the first
    run found it, now on the first header line, whatever the order of the
    indices; it writes again, and what it writes begins as what it read:
    the lines before [placeholder_start] and the six header lines. *)
Theorem second_run_keeps_placeholder_start (lines new : list string) :
  transform lines = Some new →
  let ps := Z.to_nat (placeholder_start (find_indices lines)) in
  placeholder_start (find_indices new) = placeholder_start (find_indices lines)
  ∧ ∃ new', transform new = Some new'
            ∧ take (ps + 6) new' = take (ps + 6) new
            ∧ take (ps + 6) new = take ps lines ++ header.
Proof.
  intros Ht. cbv zeta.
  destruct (transform_twice _ _ Ht) as [new' Ht'].
  destruct (transform_Some _ _ Ht) as [Hm Hnew].
  destruct (transform_Some _ _ Ht') as [Hm' Hnew'].
  destruct (found_range lines Hm) as (Hps & _ & _ & _).
  destruct (found_range_nat lines Hm) as (Hps_nat & _ & _ & _).
  destruct (find_indices_first_match lines) as (H1 & _).
  destruct (find_indices_first_match new) as (G1 & _).
  set (ps := Z.to_nat (placeholder_start (find_indices lines))) in *.
  destruct (concatenation_prefix lines ps
              (Z.to_nat (placeholder_end (find_indices lines)))
              (Z.to_nat (orphaned_start (find_indices lines)))
              (Z.to_nat (orphaned_end (find_indices lines))))
    as [Hpre Hhead]; [lia|].
  rewrite <- Hnew in Hpre, Hhead.
  assert (take (ps + 6) new = take ps lines ++ header) as Hbegin.
  { by rewrite <- take_take_drop, Hpre, Hhead. }
  assert (placeholder_start (find_indices new) = Z.of_nat ps) as Hsame.
  { apply (first_match_unique _ _ _ _ G1). right.
    exists ps, (placeholder_start_marker +:+ nl).
    split_and!; [done | | apply occurs_self_nl |].
    - rewrite <- (lookup_take_lt new (ps + 6)) by lia. rewrite Hbegin.
      rewrite lookup_app_r by (rewrite length_take; lia).
      rewrite length_take. by replace (_ - _)%nat with 0%nat by lia.
    - intros j line' Hj Hl. apply (first_match_before H1 j); [lia|].
      rewrite <- (lookup_take_lt new ps), Hpre, lookup_take_lt in Hl by lia. done. }
  split; [lia|]. exists new'. split; [done|]. split; [|done].
  rewrite Hbegin. rewrite Hnew'. rewrite Hsame, Nat2Z.id.
  assert (ps ≤ length new)%nat as Hle.
  { rewrite <- (length_take_le lines ps) by lia. rewrite <- Hpre, length_take. lia. }
  destruct (concatenation_prefix new ps
              (Z.to_nat (placeholder_end (find_indices new)))
              (Z.to_nat (orphaned_start (find_indices new)))
              (Z.to_nat (orphaned_end (find_indices new))) Hle)
    as [Hpre' Hhead'].
  by rewrite <- take_take_drop, Hpre', Hhead', Hpre.
Qed.

Lemma second_run_keeps_placeholder_start_out_of_order :
  placeholder_start (find_indices (concatenation fixture_out_of_order 1 3 0 2))
  = placeholder_start (find_indices fixture_out_of_order)
  ∧ ∃ new', transform (concatenation fixture_out_of_order 1 3 0 2) = Some new'
            ∧ take (1 + 6) new' = take (1 + 6) (concatenation fixture_out_of_order 1 3 0 2)
            ∧ take (1 + 6) (concatenation fixture_out_of_order 1 3 0 2)
              = take 1 fixture_out_of_order ++ header.
Proof.
  refine (second_run_keeps_placeholder_start fixture_out_of_order _ _).
  reflexivity.
Defined.

(** X12: the counts a successful run prints are true of the file: after
    the indices it prints the number of lines the file had and the number
    of lines the file has once written, then the success message, and
    nothing else. *)
Theorem reported_counts_match_files (w : world) (text text' : string) :
  files w !! file_path = Some text →
  snd (main w) = Exit 0 →
  files (fst (main w)) !! file_path = Some text' →
  console (fst (main w))
  = console w
    ++ [ indices_message (find_indices (readlines text));
         "Original lines: " +:+ str_of_int (len (readlines text));
         "New lines: " +:+ str_of_int (len (readlines text'));
         success_message ].
Proof.
  intros Hf Hexit Hf'. destruct (transform (readlines text)) as [new|] eqn:Ht.
  - destruct (written_file_lines_read_back w text new Hf Ht) as [Hw Hrw].
    rewrite Hw in Hf'. injection Hf' as <-.
    rewrite (main_write w text new Hf Ht). cbn [fst console].
    unfold report. by rewrite Hrw.
  - rewrite (main_abort w text Hf Ht) in Hexit. discriminate Hexit.
Qed.

Lemma reported_counts_of_fixture20 :
  console (fst (main (world_of fixture20)))
  = console (world_of fixture20)
    ++ [ indices_message (find_indices (readlines (writelines fixture20)));
         "Original lines: " +:+ str_of_int (len (readlines (writelines fixture20)));
         "New lines: "
           +:+ str_of_int
                 (len (readlines (writelines (concatenation fixture20 2 5 10 14))));
         success_message ].
Proof.
  refine (reported_counts_match_files (world_of fixture20) (writelines fixture20)
            (writelines (concatenation fixture20 2 5 10 14)) _ _ _); reflexivity.
Defined.
